(** * UnixDomainSocketAddress.c: the JNI handle cache of libnio

    A shallow embedding of
    [src/java.base/share/native/libnio/ch/UnixDomainSocketAddress.c]:
    the four file-scope variables, the JNI functions the file calls through
    [JNIEnv], and the native method
    [Java_java_nio_channels_UnixDomainSocketAddress_init].

    The C function is a straight-line sequence of JNI calls, stores to
    globals and [CHECK_NULL] early returns.  It is embedded in a small
    monad that threads the C globals, the state of the Java runtime behind
    [JNIEnv] and a chronological trace of the effects the function has
    (JNI calls with their results, stores to globals). *)

From Stdlib Require Import ZArith String List Bool Lia.
Import ListNotations.
Open Scope string_scope.
Open Scope list_scope.
Open Scope Z_scope.

(** ** JNI handle types

    [jobject], [jclass], [jfieldID] and [jmethodID] are pointers; a pointer
    is modelled by its address, and [NULL] is address 0. *)

Definition jobject := Z.
Definition jclass := jobject.
Definition jfieldID := Z.
Definition jmethodID := Z.
Definition NULL : Z := 0.

(** ** The file-scope variables (lines 35-39) *)

Inductive var : Type :=
| Vudsa_class
| Vudsa_ctorID
| Vudsa_pathID
| Vudsa_initialized.

Record globals : Type := mkGlobals {
  udsa_class : jclass;
  udsa_ctorID : jmethodID;
  udsa_pathID : jfieldID;
  udsa_initialized : Z  (* static int *)
}.

(** Objects with static storage duration are zero-initialised;
    [udsa_initialized] has the explicit initialiser 0. *)
Definition globals0 : globals :=
  {| udsa_class := NULL; udsa_ctorID := NULL; udsa_pathID := NULL;
     udsa_initialized := 0 |}.

Definition read (x : var) (g : globals) : Z :=
  match x with
  | Vudsa_class => udsa_class g
  | Vudsa_ctorID => udsa_ctorID g
  | Vudsa_pathID => udsa_pathID g
  | Vudsa_initialized => udsa_initialized g
  end.

Definition write (x : var) (v : Z) (g : globals) : globals :=
  match x with
  | Vudsa_class =>
      {| udsa_class := v; udsa_ctorID := udsa_ctorID g;
         udsa_pathID := udsa_pathID g; udsa_initialized := udsa_initialized g |}
  | Vudsa_ctorID =>
      {| udsa_class := udsa_class g; udsa_ctorID := v;
         udsa_pathID := udsa_pathID g; udsa_initialized := udsa_initialized g |}
  | Vudsa_pathID =>
      {| udsa_class := udsa_class g; udsa_ctorID := udsa_ctorID g;
         udsa_pathID := v; udsa_initialized := udsa_initialized g |}
  | Vudsa_initialized =>
      {| udsa_class := udsa_class g; udsa_ctorID := udsa_ctorID g;
         udsa_pathID := udsa_pathID g; udsa_initialized := v |}
  end.

Definition var_eqb (x y : var) : bool :=
  match x, y with
  | Vudsa_class, Vudsa_class
  | Vudsa_ctorID, Vudsa_ctorID
  | Vudsa_pathID, Vudsa_pathID
  | Vudsa_initialized, Vudsa_initialized => true
  | _, _ => false
  end.

(** ** Effects

    What one call does that is visible outside it: the JNI functions it
    calls (with arguments and result) and the globals it stores to. *)

Inductive event : Type :=
| EFindClass (name : string) (res : jclass)
| ENewGlobalRef (obj : jobject) (res : jobject)
| EDeleteGlobalRef (gref : jobject)
| EGetFieldID (clazz : jclass) (name sig : string) (res : jfieldID)
| EGetMethodID (clazz : jclass) (name sig : string) (res : jmethodID)
| EStore (x : var) (v : Z).

Definition is_FindClass (e : event) : bool :=
  match e with EFindClass _ _ => true | _ => false end.
Definition is_NewGlobalRef (e : event) : bool :=
  match e with ENewGlobalRef _ _ => true | _ => false end.
Definition is_DeleteGlobalRef (e : event) : bool :=
  match e with EDeleteGlobalRef _ => true | _ => false end.
Definition is_GetFieldID (e : event) : bool :=
  match e with EGetFieldID _ _ _ _ => true | _ => false end.
Definition is_GetMethodID (e : event) : bool :=
  match e with EGetMethodID _ _ _ _ => true | _ => false end.
Definition is_store_to (x : var) (e : event) : bool :=
  match e with EStore y _ => var_eqb x y | _ => false end.

Definition count (p : event -> bool) (t : list event) : nat :=
  List.length (List.filter p t).

(** How often the type lookup, the field lookup and the constructor lookup
    were performed. *)
Definition lookups (t : list event) : nat * nat * nat :=
  (count is_FindClass t, count is_GetFieldID t, count is_GetMethodID t).

(** ** The runtime behind [JNIEnv]

    [net_util.h] and the JNI headers are not part of this file; the
    function table [*env] is taken as an interface over an abstract runtime
    state [R].  Each function may change the runtime (load a class, allocate
    a reference, leave an exception pending).  [ExceptionCheck] reads the
    runtime's ambient error channel. *)

Record JNINativeInterface (R : Type) : Type := {
  FindClass : string -> R -> jclass * R;
  NewGlobalRef : jobject -> R -> jobject * R;
  DeleteGlobalRef : jobject -> R -> R;
  GetFieldID : jclass -> string -> string -> R -> jfieldID * R;
  GetMethodID : jclass -> string -> string -> R -> jmethodID * R;
  ExceptionCheck : R -> bool
}.
Arguments FindClass {R}.
Arguments NewGlobalRef {R}.
Arguments DeleteGlobalRef {R}.
Arguments GetFieldID {R}.
Arguments GetMethodID {R}.
Arguments ExceptionCheck {R}.

(** ** The monad of the C function body *)

(** [Return] is the C statement [return;] taken before the end of the
    body; [Next a] is normal completion of a statement. *)
Inductive flow (A : Type) : Type :=
| Next (a : A)
| Return.
Arguments Next {A}.
Arguments Return {A}.

Section Runtime.

Variable R : Type.
Variable env : JNINativeInterface R.

Record world : Type := mkWorld {
  mem : globals;
  jvm : R;
  trace : list event
}.

Definition M (A : Type) : Type := world -> flow A * world.

Definition ret {A} (a : A) : M A := fun w => (Next a, w).

Definition bind {A B} (m : M A) (k : A -> M B) : M B :=
  fun w =>
    match m w with
    | (Next a, w') => k a w'
    | (Return, w') => (Return, w')
    end.

Notation "x <- m ;; k" := (bind m (fun x => k))
  (at level 100, m at next level, right associativity).
Notation "m ;; k" := (bind m (fun _ => k))
  (at level 100, right associativity).

Definition load (x : var) : M Z := fun w => (Next (read x (mem w)), w).

Definition store (x : var) (v : Z) : M unit :=
  fun w =>
    (Next tt,
     {| mem := write x v (mem w); jvm := jvm w;
        trace := trace w ++ [EStore x v] |}).

Definition jni_FindClass (name : string) : M jclass :=
  fun w =>
    let (c, r) := FindClass env name (jvm w) in
    (Next c, {| mem := mem w; jvm := r; trace := trace w ++ [EFindClass name c] |}).

Definition jni_NewGlobalRef (obj : jobject) : M jobject :=
  fun w =>
    let (g, r) := NewGlobalRef env obj (jvm w) in
    (Next g, {| mem := mem w; jvm := r; trace := trace w ++ [ENewGlobalRef obj g] |}).

Definition jni_GetFieldID (clazz : jclass) (name sig : string) : M jfieldID :=
  fun w =>
    let (f, r) := GetFieldID env clazz name sig (jvm w) in
    (Next f, {| mem := mem w; jvm := r;
                trace := trace w ++ [EGetFieldID clazz name sig f] |}).

Definition jni_GetMethodID (clazz : jclass) (name sig : string) : M jmethodID :=
  fun w =>
    let (m, r) := GetMethodID env clazz name sig (jvm w) in
    (Next m, {| mem := mem w; jvm := r;
                trace := trace w ++ [EGetMethodID clazz name sig m] |}).

(** Modelled from the spec: the macro [CHECK_NULL] comes from a header that
    is not in this file.  "any lookup failure aborts initialization before
    the flag is set": [CHECK_NULL(x)] is [if ((x) == NULL) return;]. *)
Definition CHECK_NULL (x : Z) : M unit :=
  fun w => if x =? NULL then (Return, w) else (Next tt, w).

(** ** The native method (lines 46-62) *)

Definition Java_java_nio_channels_UnixDomainSocketAddress_init
    (dontuse : jclass) : M unit :=
  initialized <- load Vudsa_initialized ;;
  if initialized =? 0 then                                  (* !udsa_initialized *)
    c <- jni_FindClass "java/nio/channels/UnixDomainSocketAddress" ;;
    CHECK_NULL c ;;
    g <- jni_NewGlobalRef c ;;
    store Vudsa_class g ;;
    cls <- load Vudsa_class ;;
    CHECK_NULL cls ;;

    cls <- load Vudsa_class ;;
    f <- jni_GetFieldID cls "pathname" "Ljava/lang/String;" ;;
    store Vudsa_pathID f ;;
    fid <- load Vudsa_pathID ;;
    CHECK_NULL fid ;;

    cls <- load Vudsa_class ;;
    m <- jni_GetMethodID cls "<init>" "(Ljava/lang/String;)V" ;;
    store Vudsa_ctorID m ;;
    mid <- load Vudsa_ctorID ;;
    CHECK_NULL mid ;;

    store Vudsa_initialized 1
  else
    ret tt.

(** A call of the native method from the runtime: the function returns
    [void], whether it ran to the end of its body or left by [return;]. *)
Definition call (dontuse : jclass) (w : world) : world :=
  snd (Java_java_nio_channels_UnixDomainSocketAddress_init dontuse w).

(** [n] calls in a row. *)
Fixpoint calls (n : nat) (dontuse : jclass) (w : world) : world :=
  match n with
  | O => w
  | S k => calls k dontuse (call dontuse w)
  end.

(** The process starts with zero-initialised globals and nothing done. *)
Definition world0 (r : R) : world :=
  {| mem := globals0; jvm := r; trace := [] |}.

(** Between two calls of the native method the runtime runs other code:
    its state may be any other one, the C globals of this file are not
    touched. *)
Definition with_jvm (r : R) (w : world) : world :=
  {| mem := mem w; jvm := r; trace := trace w |}.

(** [later w w']: the process gets from [w] to [w'] by calls of the native
    method, the runtime doing anything in between. *)
Inductive later (w : world) : world -> Prop :=
| later_now : later w w
| later_call (dontuse : jclass) (w' : world) :
    later w w' -> later w (call dontuse w')
| later_runtime (r : R) (w' : world) :
    later w w' -> later w (with_jvm r w').

Definition reachable (w : world) : Prop := exists r, later (world0 r) w.

(** ** Vocabulary of the specification *)

(** The string literals of lines 49, 54 and 57. *)
Definition udsa_name : string := "java/nio/channels/UnixDomainSocketAddress".
Definition path_name : string := "pathname".
Definition path_sig : string := "Ljava/lang/String;".
Definition ctor_name : string := "<init>".
Definition ctor_sig : string := "(Ljava/lang/String;)V".

(** The effects of an initializing call on which no step fails, in order:
    [c], [g], [f] and [m] are what the type lookup, the promotion to a
    global reference, the field lookup and the constructor lookup return. *)
Definition steps (c g f m : Z) : list event :=
  [ EFindClass udsa_name c;
    ENewGlobalRef c g; EStore Vudsa_class g;
    EGetFieldID g path_name path_sig f; EStore Vudsa_pathID f;
    EGetMethodID g ctor_name ctor_sig m; EStore Vudsa_ctorID m;
    EStore Vudsa_initialized 1 ].

(** How many of these effects happen: all eight, or those up to the store
    of the first null result (the type lookup stores to no global). *)
Definition cut (c g f m : Z) : nat :=
  if c =? NULL then 1%nat
  else if g =? NULL then 3%nat
  else if f =? NULL then 5%nat
  else if m =? NULL then 7%nat
  else 8%nat.

(** The cases of [cut], for case analysis on an arbitrary call. *)
Inductive cut_case (c g f m : Z) : nat -> Prop :=
| cut_1 : c = NULL -> cut_case c g f m 1
| cut_3 : c <> NULL -> g = NULL -> cut_case c g f m 3
| cut_5 : c <> NULL -> g <> NULL -> f = NULL -> cut_case c g f m 5
| cut_7 : c <> NULL -> g <> NULL -> f <> NULL -> m = NULL -> cut_case c g f m 7
| cut_8 : c <> NULL -> g <> NULL -> f <> NULL -> m <> NULL -> cut_case c g f m 8.

(** What the runtime in state [r] answers to the four JNI calls of
    lines 49-57 made one after the other. *)
Definition answers (r : R) : Z * Z * Z * Z :=
  let (c, r1) := FindClass env udsa_name r in
  let (g, r2) := NewGlobalRef env c r1 in
  let (f, r3) := GetFieldID env g path_name path_sig r2 in
  let (m, _) := GetMethodID env g ctor_name ctor_sig r3 in
  (c, g, f, m).

(** The spec's InitializationFlag: [udsa_initialized] read as a C truth
    value. *)
Definition InitializationFlag (w : world) : bool :=
  negb (udsa_initialized (mem w) =? 0).

(** A handle is resolved when it is not [NULL]. *)
Definition resolved (h : Z) : Prop := h <> NULL.
Definition unresolved (h : Z) : Prop := h = NULL.

Definition all_unresolved (g : globals) : Prop :=
  unresolved (udsa_class g) /\ unresolved (udsa_pathID g) /\
  unresolved (udsa_ctorID g).

Definition all_resolved (g : globals) : Prop :=
  resolved (udsa_class g) /\ resolved (udsa_pathID g) /\
  resolved (udsa_ctorID g).

(** The invariant of the spec's data model, as it is worded. *)
Definition all_or_nothing (w : world) : Prop :=
  (all_unresolved (mem w) /\ InitializationFlag w = false) \/
  (all_resolved (mem w) /\ InitializationFlag w = true).

(** The invariant the code keeps: with the flag false only the constructor
    handle, the last one stored, is known to be unresolved. *)
Definition cache_invariant (w : world) : Prop :=
  (udsa_initialized (mem w) = 0 /\ unresolved (udsa_ctorID (mem w))) \/
  (udsa_initialized (mem w) = 1 /\ all_resolved (mem w)).

(** With the flag 0 the constructor handle is NULL and the flag was never
    stored; otherwise the flag is 1, was stored once, and the three handles
    are not NULL. *)
Definition strong_invariant (w : world) : Prop :=
  (udsa_initialized (mem w) = 0 /\ udsa_ctorID (mem w) = NULL /\
   count (is_store_to Vudsa_initialized) (trace w) = 0%nat) \/
  (udsa_initialized (mem w) = 1 /\ all_resolved (mem w) /\
   count (is_store_to Vudsa_initialized) (trace w) = 1%nat).

(** The spec's LookupError: the call left by [return;] before the end of
    the body, with an error pending in the runtime's error channel. *)
Definition LookupError (out : flow unit * world) : Prop :=
  fst out = Return /\ ExceptionCheck env (jvm (snd out)) = true.

(** The globals after the stores of a trace, in order. *)
Definition replay (t : list event) (g0 : globals) : globals :=
  fold_left (fun g e => match e with EStore x v => write x v g | _ => g end) t g0.

(** The steps of an initializing call that store their result to a global,
    each with its own global and the globals of the steps after it. *)
Inductive storing_step : Type :=
| SNewGlobalRef
| SGetFieldID
| SGetMethodID.

Definition own_global (s : storing_step) : var :=
  match s with
  | SNewGlobalRef => Vudsa_class
  | SGetFieldID => Vudsa_pathID
  | SGetMethodID => Vudsa_ctorID
  end.

Definition globals_after (s : storing_step) : list var :=
  match s with
  | SNewGlobalRef => [Vudsa_pathID; Vudsa_ctorID]
  | SGetFieldID => [Vudsa_ctorID]
  | SGetMethodID => []
  end.

(** Step [s] is the first one to return [NULL], after a type lookup that
    returned [c]. *)
Definition fails_at (s : storing_step) (c g f m : Z) : Prop :=
  c <> NULL /\
  match s with
  | SNewGlobalRef => g = NULL
  | SGetFieldID => g <> NULL /\ f = NULL
  | SGetMethodID => g <> NULL /\ f <> NULL /\ m = NULL
  end.

End Runtime.

Arguments mkWorld {R}.
Arguments mem {R}.
Arguments jvm {R}.
Arguments trace {R}.
Arguments call {R}.
Arguments calls {R}.
Arguments world0 {R}.
Arguments with_jvm {R}.
Arguments later {R}.
Arguments reachable {R}.
Arguments answers {R}.
Arguments InitializationFlag {R}.
Arguments all_or_nothing {R}.
Arguments cache_invariant {R}.
Arguments strong_invariant {R}.
Arguments LookupError {R}.
Arguments Java_java_nio_channels_UnixDomainSocketAddress_init {R}.

(** ** A runtime that answers from a script

    The next JNI call gets the next handle of the list, [NULL] once the list
    is used up.  A lookup that answers [NULL] leaves an exception pending, as
    JNI's FindClass, GetFieldID and GetMethodID do; NewGlobalRef answers
    [NULL] without one. *)

Record script : Type := mkScript {
  handles : list Z;
  pending : bool
}.

Definition answer (throws : bool) (s : script) : Z * script :=
  match handles s with
  | [] => (NULL, {| handles := []; pending := throws || pending s |})
  | h :: rest =>
      (h, {| handles := rest; pending := (throws && (h =? NULL)) || pending s |})
  end.

Definition scripted : JNINativeInterface script :=
  {| FindClass := fun _ => answer true;
     NewGlobalRef := fun _ => answer false;
     DeleteGlobalRef := fun _ s => s;
     GetFieldID := fun _ _ _ => answer true;
     GetMethodID := fun _ _ _ => answer true;
     ExceptionCheck := pending |}.

Definition play (hs : list Z) : script := {| handles := hs; pending := false |}.

(** ** Reading a trace

    Predicates and accessors on the recorded effects, for properties of
    whole histories. *)

(** No NULL reference or class was handed to the runtime. *)
Definition null_free (e : event) : bool :=
  match e with
  | ENewGlobalRef obj _ => negb (obj =? NULL)
  | EGetFieldID clazz _ _ _ => negb (clazz =? NULL)
  | EGetMethodID clazz _ _ _ => negb (clazz =? NULL)
  | _ => true
  end.

(** A JNI call that returned a non-null result. *)
Definition succeeded (e : event) : bool :=
  match e with
  | EFindClass _ res => negb (res =? NULL)
  | ENewGlobalRef _ res => negb (res =? NULL)
  | EGetFieldID _ _ _ res => negb (res =? NULL)
  | EGetMethodID _ _ _ res => negb (res =? NULL)
  | _ => false
  end.

Definition both (p q : event -> bool) (e : event) : bool := p e && q e.



(** ** A runtime without the class

    Every lookup answers [NULL] and leaves an exception pending. *)
Definition classless : JNINativeInterface bool :=
  {| FindClass := fun _ _ => (NULL, true);
     NewGlobalRef := fun _ p => (NULL, p);
     DeleteGlobalRef := fun _ p => p;
     GetFieldID := fun _ _ _ _ => (NULL, true);
     GetMethodID := fun _ _ _ _ => (NULL, true);
     ExceptionCheck := fun p => p |}.

(** * Properties *)

(** ** Test runs on the scripted runtime *)

Example run_success :
  call scripted 0 (world0 (play [7; 8; 9; 10])) =
  {| mem := {| udsa_class := 8; udsa_ctorID := 10; udsa_pathID := 9;
               udsa_initialized := 1 |};
     jvm := play [];
     trace := steps 7 8 9 10 |}.
Proof. reflexivity. Qed.

Example run_no_class :
  call scripted 0 (world0 (play [0; 8; 9; 10])) =
  {| mem := globals0;
     jvm := {| handles := [8; 9; 10]; pending := true |};
     trace := [EFindClass udsa_name 0] |}.
Proof. reflexivity. Qed.

Example run_no_field :
  call scripted 0 (world0 (play [7; 8; 0; 10])) =
  {| mem := {| udsa_class := 8; udsa_ctorID := 0; udsa_pathID := 0;
               udsa_initialized := 0 |};
     jvm := {| handles := [10]; pending := true |};
     trace := firstn 5 (steps 7 8 0 10) |}.
Proof. reflexivity. Qed.

(** ** Counting in traces *)

Lemma count_app (p : event -> bool) (t u : list event) :
  count p (t ++ u) = (count p t + count p u)%nat.
Proof. unfold count. now rewrite filter_app, length_app. Qed.

Lemma count_none (p : event -> bool) (t u : list event) :
  forallb (fun e => negb (p e)) u = true -> count p (t ++ u) = count p t.
Proof.
  intros Hu. rewrite count_app.
  assert (Hz : count p u = 0%nat).
  { unfold count. induction u as [|e u IH]; simpl in *; [reflexivity|].
    apply andb_prop in Hu. destruct Hu as [He Hu].
    destruct (p e); [discriminate|]. now apply IH. }
  lia.
Qed.

Lemma last_app_cons (t u : list event) (e d : event) :
  last (t ++ e :: u) d = last (e :: u) d.
Proof.
  induction t as [|a t IH]; [reflexivity|].
  cbn [app]. rewrite <- IH.
  destruct (t ++ e :: u) eqn:E; [|reflexivity].
  now destruct t.
Qed.

Section Paths.

Variable R : Type.
Variable env : JNINativeInterface R.

(** ** The ways through the function body *)

Lemma path_initialized (d : jclass) (w : world R) :
  udsa_initialized (mem w) <> 0 ->
  Java_java_nio_channels_UnixDomainSocketAddress_init env d w = (Next tt, w).
Proof.
  intros H. unfold Java_java_nio_channels_UnixDomainSocketAddress_init, bind, load.
  cbn [read]. apply Z.eqb_neq in H. rewrite H. reflexivity.
Qed.

(** An initializing call, whatever the runtime answers: the effects are
    the first [cut c g f m] of [steps c g f m], the runtime is left as the
    last JNI call made left it, and the body runs to its end exactly when
    all eight effects happened. *)
Lemma path_initializing (d : jclass) (w : world R)
    (c g f m : Z) (r1 r2 r3 r4 : R) :
  udsa_initialized (mem w) = 0 ->
  FindClass env udsa_name (jvm w) = (c, r1) ->
  NewGlobalRef env c r1 = (g, r2) ->
  GetFieldID env g path_name path_sig r2 = (f, r3) ->
  GetMethodID env g ctor_name ctor_sig r3 = (m, r4) ->
  Java_java_nio_channels_UnixDomainSocketAddress_init env d w =
  (if (cut c g f m =? 8)%nat then Next tt else Return,
   {| mem := replay (firstn (cut c g f m) (steps c g f m)) (mem w);
      jvm := match cut c g f m with
             | 1 => r1 | 3 => r2 | 5 => r3 | _ => r4
             end%nat;
      trace := trace w ++ firstn (cut c g f m) (steps c g f m) |}).
Proof.
  intros H0 Hc Hg Hf Hm.
  unfold udsa_name in Hc. unfold path_name, path_sig in Hf.
  unfold ctor_name, ctor_sig in Hm.
  unfold Java_java_nio_channels_UnixDomainSocketAddress_init, cut.
  unfold bind at 1. unfold load at 1. cbn [read]. rewrite H0. cbn [Z.eqb].
  unfold bind at 1. unfold jni_FindClass. rewrite Hc.
  unfold bind at 1. unfold CHECK_NULL at 1.
  destruct (c =? NULL); [reflexivity|].
  unfold bind at 1. unfold jni_NewGlobalRef. cbn [jvm mem trace]. rewrite Hg.
  unfold bind, load, store, CHECK_NULL, jni_GetFieldID, jni_GetMethodID.
  cbn [jvm mem trace read write udsa_class udsa_pathID udsa_ctorID].
  destruct (g =? NULL); [cbn; now rewrite <- !app_assoc|].
  cbn [jvm mem trace read write udsa_class udsa_pathID udsa_ctorID].
  rewrite Hf.
  cbn [jvm mem trace read write udsa_class udsa_pathID udsa_ctorID].
  destruct (f =? NULL); [cbn; now rewrite <- !app_assoc|].
  cbn [jvm mem trace read write udsa_class udsa_pathID udsa_ctorID].
  rewrite Hm.
  cbn [jvm mem trace read write udsa_class udsa_pathID udsa_ctorID].
  destruct (m =? NULL); cbn; now rewrite <- !app_assoc.
Qed.

(** [cut] on each path. *)

Lemma eqb_NULL (x : Z) : x <> NULL -> (x =? NULL) = false.
Proof. intros H. now apply Z.eqb_neq. Qed.

Lemma cut_no_class (c g f m : Z) : c = NULL -> cut c g f m = 1%nat.
Proof. intros ->. reflexivity. Qed.

Lemma cut_no_ref (c g f m : Z) :
  c <> NULL -> g = NULL -> cut c g f m = 3%nat.
Proof. intros Hc ->. unfold cut. now rewrite (eqb_NULL c Hc). Qed.

Lemma cut_no_field (c g f m : Z) :
  c <> NULL -> g <> NULL -> f = NULL -> cut c g f m = 5%nat.
Proof.
  intros Hc Hg ->. unfold cut. now rewrite (eqb_NULL c Hc), (eqb_NULL g Hg).
Qed.

Lemma cut_no_ctor (c g f m : Z) :
  c <> NULL -> g <> NULL -> f <> NULL -> m = NULL -> cut c g f m = 7%nat.
Proof.
  intros Hc Hg Hf ->. unfold cut.
  now rewrite (eqb_NULL c Hc), (eqb_NULL g Hg), (eqb_NULL f Hf).
Qed.

Lemma cut_all (c g f m : Z) :
  c <> NULL -> g <> NULL -> f <> NULL -> m <> NULL -> cut c g f m = 8%nat.
Proof.
  intros Hc Hg Hf Hm. unfold cut.
  now rewrite (eqb_NULL c Hc), (eqb_NULL g Hg), (eqb_NULL f Hf), (eqb_NULL m Hm).
Qed.

Lemma cut_cases (c g f m : Z) : cut_case c g f m (cut c g f m).
Proof.
  unfold cut.
  destruct (Z.eqb_spec c NULL); [now constructor|].
  destruct (Z.eqb_spec g NULL); [now constructor|].
  destruct (Z.eqb_spec f NULL); [now constructor|].
  destruct (Z.eqb_spec m NULL); now constructor.
Qed.

(** The path on which nothing fails. *)
Lemma path_success (d : jclass) (w : world R)
    (c g f m : Z) (r1 r2 r3 r4 : R) :
  udsa_initialized (mem w) = 0 ->
  FindClass env udsa_name (jvm w) = (c, r1) -> c <> NULL ->
  NewGlobalRef env c r1 = (g, r2) -> g <> NULL ->
  GetFieldID env g path_name path_sig r2 = (f, r3) -> f <> NULL ->
  GetMethodID env g ctor_name ctor_sig r3 = (m, r4) -> m <> NULL ->
  Java_java_nio_channels_UnixDomainSocketAddress_init env d w =
  (Next tt,
   {| mem := {| udsa_class := g; udsa_ctorID := m; udsa_pathID := f;
                udsa_initialized := 1 |};
      jvm := r4;
      trace := trace w ++ steps c g f m |}).
Proof.
  intros H0 Hc Nc Hg Ng Hf Nf Hm Nm.
  rewrite (path_initializing d w c g f m r1 r2 r3 r4 H0 Hc Hg Hf Hm).
  rewrite (cut_all c g f m Nc Ng Nf Nm). reflexivity.
Qed.

(** A call made with the flag set changes nothing. *)
Lemma call_initialized (d : jclass) (w : world R) :
  udsa_initialized (mem w) <> 0 -> call env d w = w.
Proof. intros H. unfold call. now rewrite path_initialized. Qed.

Lemma calls_initialized (n : nat) (d : jclass) (w : world R) :
  udsa_initialized (mem w) <> 0 -> calls env n d w = w.
Proof.
  intros H. induction n as [|n IH]; [reflexivity|].
  cbn [calls]. now rewrite call_initialized.
Qed.

Lemma flag_true_iff (w : world R) :
  InitializationFlag w = true <-> udsa_initialized (mem w) <> 0.
Proof.
  unfold InitializationFlag.
  destruct (Z.eqb_spec (udsa_initialized (mem w)) 0) as [E|E]; cbn; split;
    intros H; congruence.
Qed.

Lemma flag_false_iff (w : world R) :
  InitializationFlag w = false <-> udsa_initialized (mem w) = 0.
Proof.
  unfold InitializationFlag.
  destruct (Z.eqb_spec (udsa_initialized (mem w)) 0) as [E|E]; cbn; split;
    intros H; congruence.
Qed.

(** ** Invariants of the reachable worlds *)

Lemma later_invariant (P : world R -> Prop) :
  (forall d w, P w -> P (call env d w)) ->
  (forall r w, P w -> P (with_jvm r w)) ->
  forall w w', later env w w' -> P w -> P w'.
Proof.
  intros Hcall Hrt w w' Hl Hw.
  induction Hl as [|d w' _ IH|r w' _ IH]; auto.
Qed.

Lemma strong_invariant_call (d : jclass) (w : world R) :
  strong_invariant w -> strong_invariant (call env d w).
Proof.
  intros [[H0 [Hm0 Hn]]|[H1 Hres]].
  - destruct (FindClass env udsa_name (jvm w)) as [c r1] eqn:Hc.
    destruct (NewGlobalRef env c r1) as [g r2] eqn:Hg.
    destruct (GetFieldID env g path_name path_sig r2) as [f r3] eqn:Hf.
    destruct (GetMethodID env g ctor_name ctor_sig r3) as [m r4] eqn:Hm.
    unfold call, strong_invariant.
    rewrite (path_initializing d w c g f m r1 r2 r3 r4 H0 Hc Hg Hf Hm).
    cbn [snd mem trace]. rewrite count_app, Hn.
    destruct (cut_cases c g f m) as [E|N E|N1 N2 E|N1 N2 N3 E|N1 N2 N3 N4];
      cbn; try (left; repeat split; assumption).
    right. unfold all_resolved, resolved. cbn. tauto.
  - rewrite call_initialized by (rewrite H1; discriminate).
    right. now split.
Qed.

Lemma strong_invariant_reachable (w : world R) :
  reachable env w -> strong_invariant w.
Proof.
  intros [r Hl].
  apply (later_invariant strong_invariant) with (w := world0 r); auto.
  - intros d w1. apply strong_invariant_call.
  - left. cbn. auto.
Qed.

(** Once the flag is set nothing changes any more, whatever is called. *)
Lemma later_initialized (w w' : world R) :
  later env w w' -> udsa_initialized (mem w) <> 0 ->
  mem w' = mem w /\ trace w' = trace w.
Proof.
  intros Hl H. induction Hl as [|d w' _ [IHm IHt]|r w' _ IH].
  - auto.
  - rewrite call_initialized by (rewrite IHm; exact H). auto.
  - exact IH.
Qed.

End Paths.

(** * Properties of the native method *)

Section Native.

Variable R : Type.
Variable env : JNINativeInterface R.

(** C2.  Successful path: on a call made with the flag false on which the
    type lookup, the promotion to a global reference, the field lookup and
    the constructor lookup all return non-null, the body runs to its end,
    the flag is 1 and the three globals hold the three non-null results. *)
Theorem init_success (d : jclass) (w : world R)
    (c g f m : Z) (r1 r2 r3 r4 : R) :
  InitializationFlag w = false ->
  FindClass env udsa_name (jvm w) = (c, r1) -> c <> NULL ->
  NewGlobalRef env c r1 = (g, r2) -> g <> NULL ->
  GetFieldID env g path_name path_sig r2 = (f, r3) -> f <> NULL ->
  GetMethodID env g ctor_name ctor_sig r3 = (m, r4) -> m <> NULL ->
  fst (Java_java_nio_channels_UnixDomainSocketAddress_init env d w) = Next tt /\
  InitializationFlag (call env d w) = true /\
  udsa_initialized (mem (call env d w)) = 1 /\
  udsa_class (mem (call env d w)) = g /\
  udsa_pathID (mem (call env d w)) = f /\
  udsa_ctorID (mem (call env d w)) = m /\
  all_resolved (mem (call env d w)).
Proof.
  intros H0 Hc Nc Hg Ng Hf Nf Hm Nm. apply flag_false_iff in H0.
  unfold call.
  rewrite (path_success R env d w c g f m r1 r2 r3 r4) by assumption.
  cbn. unfold all_resolved, resolved. cbn. tauto.
Qed.

(** C4.  If the type lookup fails on a call made with the flag false (JNI's
    FindClass returns NULL and leaves an exception pending), the call
    returns early with that error pending, its only effect is the FindClass
    call: no field lookup, no constructor lookup, no store; the flag and
    the handles are as before. *)
Theorem type_lookup_failure (d : jclass) (w : world R) (c : jclass) (r1 : R) :
  InitializationFlag w = false ->
  FindClass env udsa_name (jvm w) = (c, r1) -> c = NULL ->
  ExceptionCheck env r1 = true ->
  LookupError env (Java_java_nio_channels_UnixDomainSocketAddress_init env d w) /\
  trace (call env d w) = trace w ++ [EFindClass udsa_name NULL] /\
  count is_GetFieldID (trace (call env d w)) = count is_GetFieldID (trace w) /\
  count is_GetMethodID (trace (call env d w)) = count is_GetMethodID (trace w) /\
  mem (call env d w) = mem w /\
  InitializationFlag (call env d w) = false.
Proof.
  intros H0 Hc Nc Hexc. pose proof H0 as Hflag. apply flag_false_iff in H0.
  destruct (NewGlobalRef env c r1) as [g r2] eqn:Hg.
  destruct (GetFieldID env g path_name path_sig r2) as [f r3] eqn:Hf.
  destruct (GetMethodID env g ctor_name ctor_sig r3) as [m r4] eqn:Hm.
  unfold call, LookupError.
  rewrite (path_initializing R env d w c g f m r1 r2 r3 r4 H0 Hc Hg Hf Hm).
  rewrite (cut_no_class c g f m Nc). subst c. cbn.
  repeat split; try assumption.
  - now apply count_none.
  - now apply count_none.
Qed.

(** C5.  If the field lookup fails after a successful type lookup and a
    successful promotion, the constructor lookup is not attempted and the
    flag stays false, while [udsa_class] holds the new global reference. *)
Theorem field_lookup_failure (d : jclass) (w : world R)
    (c g f : Z) (r1 r2 r3 : R) :
  InitializationFlag w = false ->
  FindClass env udsa_name (jvm w) = (c, r1) -> c <> NULL ->
  NewGlobalRef env c r1 = (g, r2) -> g <> NULL ->
  GetFieldID env g path_name path_sig r2 = (f, r3) -> f = NULL ->
  fst (Java_java_nio_channels_UnixDomainSocketAddress_init env d w) = Return /\
  trace (call env d w) = trace w ++ firstn 5 (steps c g NULL NULL) /\
  count is_GetMethodID (trace (call env d w)) = count is_GetMethodID (trace w) /\
  jvm (call env d w) = r3 /\
  InitializationFlag (call env d w) = false /\
  udsa_class (mem (call env d w)) = g /\ resolved g.
Proof.
  intros H0 Hc Nc Hg Ng Hf Nf. apply flag_false_iff in H0.
  destruct (GetMethodID env g ctor_name ctor_sig r3) as [m r4] eqn:Hm.
  unfold call.
  rewrite (path_initializing R env d w c g f m r1 r2 r3 r4 H0 Hc Hg Hf Hm).
  rewrite (cut_no_field c g f m Nc Ng Nf). subst f. cbn.
  repeat split; try assumption.
  - now apply count_none.
  - unfold InitializationFlag. cbn. now rewrite H0.
Qed.

(** C6.  On an initializing call the effects are, in this order, the type
    lookup by name, the promotion of its result to a global reference (stored
    to [udsa_class]), the field lookup (stored to [udsa_pathID]), the
    constructor lookup (stored to [udsa_ctorID]) and the store of 1 to the
    flag; the first step to return NULL cuts the sequence short, so the flag
    is stored last, and exactly when every step returned non-null. *)
Theorem init_order (d : jclass) (w : world R) :
  InitializationFlag w = false ->
  let '(c, g, f, m) := answers env (jvm w) in
  trace (call env d w) = trace w ++ firstn (cut c g f m) (steps c g f m) /\
  mem (call env d w) = replay (firstn (cut c g f m) (steps c g f m)) (mem w) /\
  (cut c g f m = 8%nat <->
   c <> NULL /\ g <> NULL /\ f <> NULL /\ m <> NULL) /\
  (fst (Java_java_nio_channels_UnixDomainSocketAddress_init env d w) = Next tt <->
   cut c g f m = 8%nat) /\
  udsa_initialized (mem (call env d w)) =
    (if (cut c g f m =? 8)%nat then 1 else 0) /\
  last (steps c g f m) (EStore Vudsa_class NULL) = EStore Vudsa_initialized 1.
Proof.
  intros H0. apply flag_false_iff in H0. unfold answers.
  destruct (FindClass env udsa_name (jvm w)) as [c r1] eqn:Hc.
  destruct (NewGlobalRef env c r1) as [g r2] eqn:Hg.
  destruct (GetFieldID env g path_name path_sig r2) as [f r3] eqn:Hf.
  destruct (GetMethodID env g ctor_name ctor_sig r3) as [m r4] eqn:Hm.
  unfold call.
  rewrite (path_initializing R env d w c g f m r1 r2 r3 r4 H0 Hc Hg Hf Hm).
  cbn [fst snd mem trace].
  split; [reflexivity|]. split; [reflexivity|].
  destruct (cut_cases c g f m) as [E|N E|N1 N2 E|N1 N2 N3 E|N1 N2 N3 N4];
    cbn; rewrite ?H0; repeat split; intros; try tauto; try discriminate;
    try lia.
Qed.

(** C7.  No rollback: if the field lookup or the constructor lookup fails
    after the type was promoted to a global reference [g], the call returns
    early with [udsa_class] still holding [g]; the reference was created by
    one NewGlobalRef call and no DeleteGlobalRef call was made. *)
Theorem no_rollback (d : jclass) (w : world R)
    (c g f m : Z) (r1 r2 r3 r4 : R) :
  InitializationFlag w = false ->
  FindClass env udsa_name (jvm w) = (c, r1) -> c <> NULL ->
  NewGlobalRef env c r1 = (g, r2) -> g <> NULL ->
  GetFieldID env g path_name path_sig r2 = (f, r3) ->
  GetMethodID env g ctor_name ctor_sig r3 = (m, r4) ->
  f = NULL \/ m = NULL ->
  fst (Java_java_nio_channels_UnixDomainSocketAddress_init env d w) = Return /\
  InitializationFlag (call env d w) = false /\
  udsa_class (mem (call env d w)) = g /\
  count is_NewGlobalRef (trace (call env d w)) =
    S (count is_NewGlobalRef (trace w)) /\
  count is_DeleteGlobalRef (trace (call env d w)) =
    count is_DeleteGlobalRef (trace w) /\
  count (is_store_to Vudsa_class) (trace (call env d w)) =
    S (count (is_store_to Vudsa_class) (trace w)).
Proof.
  intros H0 Hc Nc Hg Ng Hf Hm Hfail. apply flag_false_iff in H0.
  unfold call, InitializationFlag.
  rewrite (path_initializing R env d w c g f m r1 r2 r3 r4 H0 Hc Hg Hf Hm).
  destruct (cut_cases c g f m) as [E|N E|N1 N2 E|N1 N2 N3 E|N1 N2 N3 N4];
    try (exfalso; tauto);
    cbn [fst snd mem trace]; rewrite !count_app; cbn; rewrite ?H0;
    repeat split; lia.
Qed.

(** C9.  A failed initialization can be retried: after a call that left the
    flag false, a later call (the runtime now in state [r]) runs the whole
    sequence again from the type lookup, and if every step succeeds the
    cache is fully initialized, with [udsa_class] holding the new global
    reference; whatever [udsa_class] held from the failed attempt is
    overwritten without a DeleteGlobalRef call. *)
Theorem failed_init_retryable (d0 d : jclass) (w0 : world R) (r : R)
    (c g f m : Z) (r1 r2 r3 r4 : R) :
  InitializationFlag w0 = false ->
  InitializationFlag (call env d0 w0) = false ->
  FindClass env udsa_name r = (c, r1) -> c <> NULL ->
  NewGlobalRef env c r1 = (g, r2) -> g <> NULL ->
  GetFieldID env g path_name path_sig r2 = (f, r3) -> f <> NULL ->
  GetMethodID env g ctor_name ctor_sig r3 = (m, r4) -> m <> NULL ->
  Java_java_nio_channels_UnixDomainSocketAddress_init env d
    (with_jvm r (call env d0 w0)) =
  (Next tt,
   {| mem := {| udsa_class := g; udsa_ctorID := m; udsa_pathID := f;
                udsa_initialized := 1 |};
      jvm := r4;
      trace := trace (call env d0 w0) ++ steps c g f m |}) /\
  count is_DeleteGlobalRef (trace (call env d (with_jvm r (call env d0 w0)))) =
    count is_DeleteGlobalRef (trace w0).
Proof.
  intros H0 H1 Hc Nc Hg Ng Hf Nf Hm Nm.
  apply flag_false_iff in H1.
  assert (E : Java_java_nio_channels_UnixDomainSocketAddress_init env d
                (with_jvm r (call env d0 w0)) =
    (Next tt,
     {| mem := {| udsa_class := g; udsa_ctorID := m; udsa_pathID := f;
                  udsa_initialized := 1 |};
        jvm := r4;
        trace := trace (call env d0 w0) ++ steps c g f m |})).
  { now apply (path_success R env d (with_jvm r (call env d0 w0))
                 c g f m r1 r2 r3 r4). }
  split; [exact E|].
  unfold call at 1. rewrite E. cbn [snd trace].
  rewrite count_app. cbn.
  (* the failed first call made no DeleteGlobalRef call either *)
  apply flag_false_iff in H0.
  destruct (FindClass env udsa_name (jvm w0)) as [c' r1'] eqn:Hc'.
  destruct (NewGlobalRef env c' r1') as [g' r2'] eqn:Hg'.
  destruct (GetFieldID env g' path_name path_sig r2') as [f' r3'] eqn:Hf'.
  destruct (GetMethodID env g' ctor_name ctor_sig r3') as [m' r4'] eqn:Hm'.
  unfold call.
  rewrite (path_initializing R env d0 w0 c' g' f' m' r1' r2' r3' r4'
             H0 Hc' Hg' Hf' Hm').
  cbn [snd trace]. rewrite count_app.
  destruct (cut_cases c' g' f' m'); cbn; lia.
Qed.

(** C10.  Each global is stored before it is tested: when the promotion,
    the field lookup or the constructor lookup is the first step to return
    NULL, its own global is overwritten with NULL (the store is the last
    effect of the call), and the globals of the steps after it, and the flag,
    keep the values they had. *)
Theorem failing_step_stores_null (s : storing_step) (d : jclass) (w : world R)
    (c g f m : Z) (r1 r2 r3 r4 : R) :
  InitializationFlag w = false ->
  FindClass env udsa_name (jvm w) = (c, r1) ->
  NewGlobalRef env c r1 = (g, r2) ->
  GetFieldID env g path_name path_sig r2 = (f, r3) ->
  GetMethodID env g ctor_name ctor_sig r3 = (m, r4) ->
  fails_at s c g f m ->
  fst (Java_java_nio_channels_UnixDomainSocketAddress_init env d w) = Return /\
  read (own_global s) (mem (call env d w)) = NULL /\
  last (trace (call env d w)) (EStore Vudsa_initialized 1) =
    EStore (own_global s) NULL /\
  Forall (fun x => read x (mem (call env d w)) = read x (mem w))
    (Vudsa_initialized :: globals_after s).
Proof.
  intros H0 Hc Hg Hf Hm [Nc Hs]. apply flag_false_iff in H0.
  unfold call.
  rewrite (path_initializing R env d w c g f m r1 r2 r3 r4 H0 Hc Hg Hf Hm).
  destruct s; cbn in Hs.
  - rewrite (cut_no_ref c g f m Nc Hs). subst g. cbn.
    rewrite last_app_cons. repeat split. repeat constructor.
  - destruct Hs as [Ng Nf]. rewrite (cut_no_field c g f m Nc Ng Nf). subst f.
    cbn. rewrite last_app_cons. repeat split. repeat constructor.
  - destruct Hs as [Ng [Nf Nm]].
    rewrite (cut_no_ctor c g f m Nc Ng Nf Nm). subst m.
    cbn. rewrite last_app_cons. repeat split. repeat constructor.
Qed.

(** C1, as the code has it.  In every world reachable by calls of the
    native method, either the flag is 0 and the constructor handle is NULL
    (the type handle and the field handle hold whatever the last failed
    attempt left), or the flag is 1 and the three handles are non-null. *)
Theorem reachable_cache_invariant (w : world R) :
  reachable env w -> cache_invariant w.
Proof.
  intros Hr. destruct (strong_invariant_reachable R env w Hr) as [H|H].
  - left. unfold unresolved. tauto.
  - right. tauto.
Qed.

(** C8.  In every reachable world the flag is 0 or 1 and was stored at most
    once; a call leaves the flag as it is or takes it from 0 to 1; and from
    a world where the flag is true, whatever is called later, the flag stays
    true, the globals keep their values and nothing more is done (no lookup,
    no store, no DeleteGlobalRef). *)
Theorem flag_set_once (w : world R) :
  reachable env w ->
  (count (is_store_to Vudsa_initialized) (trace w) <= 1)%nat /\
  (udsa_initialized (mem w) = 0 \/ udsa_initialized (mem w) = 1) /\
  (forall d,
     udsa_initialized (mem (call env d w)) = udsa_initialized (mem w) \/
     udsa_initialized (mem w) = 0 /\ udsa_initialized (mem (call env d w)) = 1) /\
  (forall w',
     later env w w' -> InitializationFlag w = true ->
     InitializationFlag w' = true /\ mem w' = mem w /\ trace w' = trace w).
Proof.
  intros Hr. pose proof (strong_invariant_reachable R env w Hr) as Hw.
  split; [|split; [|split]].
  - destruct Hw as [[_ [_ Hn]]|[_ [_ Hn]]]; rewrite Hn; lia.
  - destruct Hw as [[H _]|[H _]]; auto.
  - intros d.
    destruct Hw as [[H' [Hm' Hn']]|[H' Hres]].
    + destruct (strong_invariant_call R env d w) as [[H _]|[H _]];
        [left; auto| |]; rewrite H, H'; auto.
    + left. rewrite call_initialized by (rewrite H'; discriminate).
      reflexivity.
  - intros w' Hl Hf. apply flag_true_iff in Hf.
    destruct (later_initialized R env w w' Hl Hf) as [Em Et].
    repeat split; try assumption.
    apply flag_true_iff. now rewrite Em.
Qed.

(** C3, as the code has it.  When the steps of the first call all succeed,
    [N >= 1] calls in a row from the start of the process perform the type
    lookup, the field lookup and the constructor lookup exactly once each,
    and leave the world as the first call left it.  In any world with the
    flag true a call runs to the end of its body at once and changes
    nothing: not the globals, not the runtime, not the trace; it is not a
    LookupError. *)
Theorem init_idempotent (d : jclass) (r : R) (N : nat)
    (c g f m : Z) (r1 r2 r3 r4 : R) :
  (1 <= N)%nat ->
  FindClass env udsa_name r = (c, r1) -> c <> NULL ->
  NewGlobalRef env c r1 = (g, r2) -> g <> NULL ->
  GetFieldID env g path_name path_sig r2 = (f, r3) -> f <> NULL ->
  GetMethodID env g ctor_name ctor_sig r3 = (m, r4) -> m <> NULL ->
  lookups (trace (calls env N d (world0 r))) = (1%nat, 1%nat, 1%nat) /\
  calls env N d (world0 r) = call env d (world0 r) /\
  InitializationFlag (call env d (world0 r)) = true /\
  (forall d' w,
     InitializationFlag w = true ->
     Java_java_nio_channels_UnixDomainSocketAddress_init env d' w = (Next tt, w) /\
     ~ LookupError env
         (Java_java_nio_channels_UnixDomainSocketAddress_init env d' w)).
Proof.
  intros HN Hc Nc Hg Ng Hf Nf Hm Nm.
  assert (E : Java_java_nio_channels_UnixDomainSocketAddress_init env d (world0 r) =
    (Next tt,
     {| mem := {| udsa_class := g; udsa_ctorID := m; udsa_pathID := f;
                  udsa_initialized := 1 |};
        jvm := r4;
        trace := [] ++ steps c g f m |})).
  { now apply (path_success R env d (world0 r) c g f m r1 r2 r3 r4). }
  destruct N as [|N]; [lia|]. cbn [calls].
  rewrite calls_initialized
    by (unfold call; rewrite E; cbn; discriminate).
  unfold call. rewrite E. cbn [snd trace app].
  split; [reflexivity|]. split; [reflexivity|]. split; [reflexivity|].
  intros d' w Hw. apply flag_true_iff in Hw.
  rewrite (path_initialized R env d' w Hw). split; [reflexivity|].
  unfold LookupError. cbn. intros [Habs _]. discriminate.
Qed.

End Native.

(** * Runs on the scripted runtime *)

Ltac by_running :=
  first [reflexivity | unfold NULL; lia | vm_compute; intuition congruence].

(** The first call finds everything: handles 7 (local class reference),
    8 (global reference), 9 (field) and 10 (constructor). *)
Lemma init_success_witness :
  fst (Java_java_nio_channels_UnixDomainSocketAddress_init scripted 0
         (world0 (play [7; 8; 9; 10]))) = Next tt /\
  InitializationFlag (call scripted 0 (world0 (play [7; 8; 9; 10]))) = true /\
  udsa_initialized (mem (call scripted 0 (world0 (play [7; 8; 9; 10])))) = 1 /\
  udsa_class (mem (call scripted 0 (world0 (play [7; 8; 9; 10])))) = 8 /\
  udsa_pathID (mem (call scripted 0 (world0 (play [7; 8; 9; 10])))) = 9 /\
  udsa_ctorID (mem (call scripted 0 (world0 (play [7; 8; 9; 10])))) = 10 /\
  all_resolved (mem (call scripted 0 (world0 (play [7; 8; 9; 10])))).
Proof.
  apply (init_success script scripted 0 (world0 (play [7; 8; 9; 10]))
           7 8 9 10 (play [8; 9; 10]) (play [9; 10]) (play [10]) (play []));
    by_running.
Defined.

(** The class is not found. *)
Lemma type_lookup_failure_witness :
  LookupError scripted
    (Java_java_nio_channels_UnixDomainSocketAddress_init scripted 0
       (world0 (play [0; 8; 9; 10]))) /\
  trace (call scripted 0 (world0 (play [0; 8; 9; 10]))) =
    trace (world0 (play [0; 8; 9; 10])) ++ [EFindClass udsa_name NULL] /\
  count is_GetFieldID (trace (call scripted 0 (world0 (play [0; 8; 9; 10])))) =
    count is_GetFieldID (trace (world0 (play [0; 8; 9; 10]))) /\
  count is_GetMethodID (trace (call scripted 0 (world0 (play [0; 8; 9; 10])))) =
    count is_GetMethodID (trace (world0 (play [0; 8; 9; 10]))) /\
  mem (call scripted 0 (world0 (play [0; 8; 9; 10]))) =
    mem (world0 (play [0; 8; 9; 10])) /\
  InitializationFlag (call scripted 0 (world0 (play [0; 8; 9; 10]))) = false.
Proof.
  apply (type_lookup_failure script scripted 0 (world0 (play [0; 8; 9; 10]))
           0 {| handles := [8; 9; 10]; pending := true |});
    by_running.
Defined.

(** The class is found and promoted, the field is not found. *)
Lemma field_lookup_failure_witness :
  fst (Java_java_nio_channels_UnixDomainSocketAddress_init scripted 0
         (world0 (play [7; 8; 0; 10]))) = Return /\
  trace (call scripted 0 (world0 (play [7; 8; 0; 10]))) =
    trace (world0 (play [7; 8; 0; 10])) ++ firstn 5 (steps 7 8 NULL NULL) /\
  count is_GetMethodID (trace (call scripted 0 (world0 (play [7; 8; 0; 10])))) =
    count is_GetMethodID (trace (world0 (play [7; 8; 0; 10]))) /\
  jvm (call scripted 0 (world0 (play [7; 8; 0; 10]))) =
    {| handles := [10]; pending := true |} /\
  InitializationFlag (call scripted 0 (world0 (play [7; 8; 0; 10]))) = false /\
  udsa_class (mem (call scripted 0 (world0 (play [7; 8; 0; 10])))) = 8 /\
  resolved 8.
Proof.
  apply (field_lookup_failure script scripted 0 (world0 (play [7; 8; 0; 10]))
           7 8 0 (play [8; 0; 10]) (play [0; 10])
           {| handles := [10]; pending := true |});
    by_running.
Defined.

(** An initializing call on which the constructor is not found: seven of
    the eight effects happen. *)
Lemma init_order_witness :
  trace (call scripted 0 (world0 (play [7; 8; 9; 0]))) =
    firstn 7 (steps 7 8 9 0) /\
  udsa_initialized (mem (call scripted 0 (world0 (play [7; 8; 9; 0])))) = 0.
Proof.
  pose proof (init_order script scripted 0 (world0 (play [7; 8; 9; 0]))
                eq_refl) as H.
  cbv beta iota delta [answers] in H. cbn in H.
  destruct H as [Ht [_ [_ [_ [Hf _]]]]]. split; [exact Ht | exact Hf].
Defined.

(** The field is found on the promoted class, the constructor is not. *)
Lemma no_rollback_witness :
  fst (Java_java_nio_channels_UnixDomainSocketAddress_init scripted 0
         (world0 (play [7; 8; 9; 0]))) = Return /\
  InitializationFlag (call scripted 0 (world0 (play [7; 8; 9; 0]))) = false /\
  udsa_class (mem (call scripted 0 (world0 (play [7; 8; 9; 0])))) = 8 /\
  count is_NewGlobalRef (trace (call scripted 0 (world0 (play [7; 8; 9; 0])))) =
    S (count is_NewGlobalRef (trace (world0 (play [7; 8; 9; 0])))) /\
  count is_DeleteGlobalRef (trace (call scripted 0 (world0 (play [7; 8; 9; 0])))) =
    count is_DeleteGlobalRef (trace (world0 (play [7; 8; 9; 0]))) /\
  count (is_store_to Vudsa_class) (trace (call scripted 0 (world0 (play [7; 8; 9; 0])))) =
    S (count (is_store_to Vudsa_class) (trace (world0 (play [7; 8; 9; 0])))).
Proof.
  apply (no_rollback script scripted 0 (world0 (play [7; 8; 9; 0]))
           7 8 9 0 (play [8; 9; 0]) (play [9; 0]) (play [0])
           {| handles := []; pending := true |});
    by_running.
Defined.

(** The first call does not find the field; by the second call the runtime
    has changed and answers every step. *)
Lemma failed_init_retryable_witness :
  Java_java_nio_channels_UnixDomainSocketAddress_init scripted 0
    (with_jvm (play [17; 18; 19; 20])
       (call scripted 0 (world0 (play [7; 8; 0])))) =
  (Next tt,
   {| mem := {| udsa_class := 18; udsa_ctorID := 20; udsa_pathID := 19;
                udsa_initialized := 1 |};
      jvm := play [];
      trace := trace (call scripted 0 (world0 (play [7; 8; 0]))) ++
               steps 17 18 19 20 |}) /\
  count is_DeleteGlobalRef
    (trace (call scripted 0
              (with_jvm (play [17; 18; 19; 20])
                 (call scripted 0 (world0 (play [7; 8; 0])))))) =
  count is_DeleteGlobalRef (trace (world0 (play [7; 8; 0]))).
Proof.
  apply (failed_init_retryable script scripted 0 0 (world0 (play [7; 8; 0]))
           (play [17; 18; 19; 20]) 17 18 19 20
           (play [18; 19; 20]) (play [19; 20]) (play [20]) (play []));
    by_running.
Defined.

(** The promotion to a global reference fails while [udsa_pathID] holds 5
    from earlier: [udsa_class] becomes NULL, [udsa_pathID] stays 5. *)
Lemma failing_step_stores_null_witness :
  fst (Java_java_nio_channels_UnixDomainSocketAddress_init scripted 0
         {| mem := {| udsa_class := 4; udsa_ctorID := 0; udsa_pathID := 5;
                      udsa_initialized := 0 |};
            jvm := play [7; 0]; trace := [] |}) = Return /\
  read Vudsa_class
    (mem (call scripted 0
            {| mem := {| udsa_class := 4; udsa_ctorID := 0; udsa_pathID := 5;
                         udsa_initialized := 0 |};
               jvm := play [7; 0]; trace := [] |})) = NULL /\
  last (trace (call scripted 0
            {| mem := {| udsa_class := 4; udsa_ctorID := 0; udsa_pathID := 5;
                         udsa_initialized := 0 |};
               jvm := play [7; 0]; trace := [] |}))
    (EStore Vudsa_initialized 1) = EStore Vudsa_class NULL /\
  Forall
    (fun x =>
       read x
         (mem (call scripted 0
            {| mem := {| udsa_class := 4; udsa_ctorID := 0; udsa_pathID := 5;
                         udsa_initialized := 0 |};
               jvm := play [7; 0]; trace := [] |})) =
       read x {| udsa_class := 4; udsa_ctorID := 0; udsa_pathID := 5;
                 udsa_initialized := 0 |})
    [Vudsa_initialized; Vudsa_pathID; Vudsa_ctorID].
Proof.
  apply (failing_step_stores_null script scripted SNewGlobalRef 0
           {| mem := {| udsa_class := 4; udsa_ctorID := 0; udsa_pathID := 5;
                        udsa_initialized := 0 |};
              jvm := play [7; 0]; trace := [] |}
           7 0 0 0 (play [0]) (play [])
           {| handles := []; pending := true |}
           {| handles := []; pending := true |});
    by_running.
Defined.

(** After a call on which the field was not found: flag 0, constructor
    handle NULL, type handle 8. *)
Lemma reachable_cache_invariant_witness :
  reachable scripted (call scripted 0 (world0 (play [7; 8; 0; 10]))) /\
  cache_invariant (call scripted 0 (world0 (play [7; 8; 0; 10]))).
Proof.
  assert (Hr : reachable scripted (call scripted 0 (world0 (play [7; 8; 0; 10])))).
  { exists (play [7; 8; 0; 10]). apply later_call, later_now. }
  split; [exact Hr|].
  exact (reachable_cache_invariant script scripted _ Hr).
Defined.

(** C1, as worded, fails in that world: the flag is false and [udsa_class]
    is resolved, [udsa_pathID] is not. *)
Lemma partial_state_reachable :
  reachable scripted (call scripted 0 (world0 (play [7; 8; 0; 10]))) /\
  udsa_class (mem (call scripted 0 (world0 (play [7; 8; 0; 10])))) = 8 /\
  udsa_pathID (mem (call scripted 0 (world0 (play [7; 8; 0; 10])))) = NULL /\
  InitializationFlag (call scripted 0 (world0 (play [7; 8; 0; 10]))) = false /\
  ~ all_or_nothing (call scripted 0 (world0 (play [7; 8; 0; 10]))).
Proof.
  split.
  { exists (play [7; 8; 0; 10]). apply later_call, later_now. }
  repeat split.
  intros [[[Hc _] _]|[[_ [Hp _]] _]].
  - vm_compute in Hc. discriminate Hc.
  - apply Hp. reflexivity.
Qed.

(** Two calls after a successful first one. *)
Lemma flag_set_once_witness :
  reachable scripted (calls scripted 3 0 (world0 (play [7; 8; 9; 10]))) /\
  (count (is_store_to Vudsa_initialized)
     (trace (calls scripted 3 0%Z (world0 (play [7; 8; 9; 10]%Z)))) <= 1)%nat /\
  forall w',
    later scripted (calls scripted 3 0 (world0 (play [7; 8; 9; 10]))) w' ->
    InitializationFlag (calls scripted 3 0 (world0 (play [7; 8; 9; 10]))) = true ->
    InitializationFlag w' = true /\
    mem w' = mem (calls scripted 3 0 (world0 (play [7; 8; 9; 10]))) /\
    trace w' = trace (calls scripted 3 0 (world0 (play [7; 8; 9; 10]))).
Proof.
  assert (Hr : reachable scripted (calls scripted 3 0 (world0 (play [7; 8; 9; 10])))).
  { exists (play [7; 8; 9; 10]).
    change (calls scripted 3 0 (world0 (play [7; 8; 9; 10])))
      with (call scripted 0 (call scripted 0 (call scripted 0
              (world0 (play [7; 8; 9; 10]))))).
    apply later_call, later_call, later_call, later_now. }
  destruct (flag_set_once script scripted _ Hr) as [Hn [_ [_ Hl]]].
  split; [exact Hr|]. split; [exact Hn | exact Hl].
Defined.

(** Five calls, the first one successful: one lookup of each kind. *)
Lemma init_idempotent_witness :
  lookups (trace (calls scripted 5 0 (world0 (play [7; 8; 9; 10])))) =
    (1%nat, 1%nat, 1%nat) /\
  calls scripted 5 0 (world0 (play [7; 8; 9; 10])) =
    call scripted 0 (world0 (play [7; 8; 9; 10])) /\
  InitializationFlag (call scripted 0 (world0 (play [7; 8; 9; 10]))) = true /\
  (forall d' w,
     InitializationFlag w = true ->
     Java_java_nio_channels_UnixDomainSocketAddress_init scripted d' w =
       (Next tt, w) /\
     ~ LookupError scripted
         (Java_java_nio_channels_UnixDomainSocketAddress_init scripted d' w)).
Proof.
  apply (init_idempotent script scripted 0 (play [7; 8; 9; 10]) 5
           7 8 9 10 (play [8; 9; 10]) (play [9; 10]) (play [10]) (play []));
    by_running.
Defined.

(** C3, as worded, fails when the first call fails: the class is not found
    on the first call and found on the second, and the type lookup has been
    performed twice. *)
Lemma lookups_repeated_after_failure :
  (1 <= 2)%nat /\
  lookups (trace (calls scripted 2 0 (world0 (play [0; 7; 8; 9; 10])))) =
    (2%nat, 1%nat, 1%nat) /\
  lookups (trace (calls scripted 2 0 (world0 (play [0; 7; 8; 9; 10])))) <>
    (1%nat, 1%nat, 1%nat).
Proof.
  split; [lia|]. split; [reflexivity|]. vm_compute. discriminate.
Qed.

(** * Further properties of the native method *)


Section Lifetime.

Variable R : Type.
Variable env : JNINativeInterface R.

(** X1.  If NewGlobalRef returns NULL for the class that FindClass found,
    the call stores NULL to [udsa_class] (whatever it held), returns early
    without a field or constructor lookup, leaves the flag false, and leaves
    the runtime exactly as NewGlobalRef left it: the function raises no error
    of its own. *)
Theorem promotion_failure (d : jclass) (w : world R)
    (c g : Z) (r1 r2 : R) :
  InitializationFlag w = false ->
  FindClass env udsa_name (jvm w) = (c, r1) -> c <> NULL ->
  NewGlobalRef env c r1 = (g, r2) -> g = NULL ->
  fst (Java_java_nio_channels_UnixDomainSocketAddress_init env d w) = Return /\
  trace (call env d w) = trace w ++ firstn 3 (steps c NULL NULL NULL) /\
  count is_GetFieldID (trace (call env d w)) = count is_GetFieldID (trace w) /\
  count is_GetMethodID (trace (call env d w)) = count is_GetMethodID (trace w) /\
  jvm (call env d w) = r2 /\
  udsa_class (mem (call env d w)) = NULL /\
  udsa_pathID (mem (call env d w)) = udsa_pathID (mem w) /\
  udsa_ctorID (mem (call env d w)) = udsa_ctorID (mem w) /\
  InitializationFlag (call env d w) = false.
Proof.
  intros H0 Hc Nc Hg Ng. apply flag_false_iff in H0.
  destruct (GetFieldID env g path_name path_sig r2) as [f r3] eqn:Hf.
  destruct (GetMethodID env g ctor_name ctor_sig r3) as [m r4] eqn:Hm.
  unfold call.
  rewrite (path_initializing R env d w c g f m r1 r2 r3 r4 H0 Hc Hg Hf Hm).
  rewrite (cut_no_ref c g f m Nc Ng). subst g. cbn.
  repeat split.
  - now apply count_none.
  - now apply count_none.
  - unfold InitializationFlag. cbn. now rewrite H0.
Qed.

(** X2.  If the constructor lookup fails after the class was found and
    promoted and the field was found, the call returns early with the flag
    false, [udsa_class] and [udsa_pathID] holding the new non-null handles
    and [udsa_ctorID] NULL; the flag is not stored. *)
Theorem constructor_lookup_failure (d : jclass) (w : world R)
    (c g f m : Z) (r1 r2 r3 r4 : R) :
  InitializationFlag w = false ->
  FindClass env udsa_name (jvm w) = (c, r1) -> c <> NULL ->
  NewGlobalRef env c r1 = (g, r2) -> g <> NULL ->
  GetFieldID env g path_name path_sig r2 = (f, r3) -> f <> NULL ->
  GetMethodID env g ctor_name ctor_sig r3 = (m, r4) -> m = NULL ->
  fst (Java_java_nio_channels_UnixDomainSocketAddress_init env d w) = Return /\
  call env d w =
    {| mem := {| udsa_class := g; udsa_ctorID := NULL; udsa_pathID := f;
                 udsa_initialized := 0 |};
       jvm := r4;
       trace := trace w ++ firstn 7 (steps c g f NULL) |} /\
  count (is_store_to Vudsa_initialized) (trace (call env d w)) =
    count (is_store_to Vudsa_initialized) (trace w).
Proof.
  intros H0 Hc Nc Hg Ng Hf Nf Hm Nm. apply flag_false_iff in H0.
  unfold call.
  rewrite (path_initializing R env d w c g f m r1 r2 r3 r4 H0 Hc Hg Hf Hm).
  rewrite (cut_no_ctor c g f m Nc Ng Nf Nm). subst m. cbn.
  rewrite H0. repeat split. now apply count_none.
Qed.

(** X8.  One call extends the history and never rewrites it: it adds at
    most eight effects, among them at most one call of each of FindClass,
    NewGlobalRef, GetFieldID and GetMethodID. *)
Theorem call_bounded (d : jclass) (w : world R) :
  (exists t, trace (call env d w) = trace w ++ t /\ (length t <= 8)%nat) /\
  (count is_FindClass (trace (call env d w)) <=
     S (count is_FindClass (trace w)))%nat /\
  (count is_NewGlobalRef (trace (call env d w)) <=
     S (count is_NewGlobalRef (trace w)))%nat /\
  (count is_GetFieldID (trace (call env d w)) <=
     S (count is_GetFieldID (trace w)))%nat /\
  (count is_GetMethodID (trace (call env d w)) <=
     S (count is_GetMethodID (trace w)))%nat.
Proof.
  destruct (Z.eq_dec (udsa_initialized (mem w)) 0) as [H0|H1].
  - destruct (FindClass env udsa_name (jvm w)) as [c r1] eqn:Hc.
    destruct (NewGlobalRef env c r1) as [g r2] eqn:Hg.
    destruct (GetFieldID env g path_name path_sig r2) as [f r3] eqn:Hf.
    destruct (GetMethodID env g ctor_name ctor_sig r3) as [m r4] eqn:Hm.
    unfold call.
    rewrite (path_initializing R env d w c g f m r1 r2 r3 r4 H0 Hc Hg Hf Hm).
    cbn [snd trace]. rewrite !count_app.
    split.
    + eexists. split; [reflexivity|].
      rewrite length_firstn. cbn. lia.
    + destruct (cut_cases c g f m); cbn; lia.
  - rewrite (call_initialized R env d w H1).
    split; [|lia].
    exists []. rewrite app_nil_r. split; [reflexivity | cbn; lia].
Qed.

(** Case analysis on a call: either the flag was set and nothing happened,
    or the first [cut c g f m] effects of [steps c g f m] happened. *)
Lemma call_cases (d : jclass) (w : world R) :
  (udsa_initialized (mem w) <> 0 /\ call env d w = w) \/
  (udsa_initialized (mem w) = 0 /\
   exists c g f m n,
     cut_case c g f m n /\
     mem (call env d w) = replay (firstn n (steps c g f m)) (mem w) /\
     trace (call env d w) = trace w ++ firstn n (steps c g f m)).
Proof.
  destruct (Z.eq_dec (udsa_initialized (mem w)) 0) as [H0|H1].
  - right. split; [exact H0|].
    destruct (FindClass env udsa_name (jvm w)) as [c r1] eqn:Hc.
    destruct (NewGlobalRef env c r1) as [g r2] eqn:Hg.
    destruct (GetFieldID env g path_name path_sig r2) as [f r3] eqn:Hf.
    destruct (GetMethodID env g ctor_name ctor_sig r3) as [m r4] eqn:Hm.
    exists c, g, f, m, (cut c g f m). split; [apply cut_cases|].
    unfold call.
    rewrite (path_initializing R env d w c g f m r1 r2 r3 r4 H0 Hc Hg Hf Hm).
    split; reflexivity.
  - left. split; [exact H1|]. now apply call_initialized.
Qed.

Ltac null_tests :=
  repeat match goal with
         | H : ?x <> NULL |- _ => apply Z.eqb_neq in H
         | H : ?x = NULL |- _ => subst x
         end;
  unfold NULL in *.

(** X3.  In no reachable world was NULL ever handed to the runtime: every
    NewGlobalRef call got a non-null reference, every GetFieldID and
    GetMethodID call a non-null class. *)
Theorem null_never_passed (w : world R) :
  reachable env w -> forallb null_free (trace w) = true.
Proof.
  intros [r Hl].
  apply (later_invariant R env
           (fun w => forallb null_free (trace w) = true))
    with (w := world0 r); [| |exact Hl|reflexivity].
  - intros d w1 IH.
    destruct (call_cases d w1) as [[_ E]|[_ (c & g & f & m & n & Hn & _ & Et)]].
    + now rewrite E.
    + rewrite Et, forallb_app, IH.
      destruct Hn; null_tests; cbn; unfold NULL;
        repeat match goal with H : (_ =? 0) = false |- _ => rewrite H end;
        reflexivity.
  - intros r' w1 IH. exact IH.
Qed.

(** X7.  In no reachable world was DeleteGlobalRef ever called: a global
    reference, once created, is never released by this file. *)
Theorem never_releases (w : world R) :
  reachable env w -> count is_DeleteGlobalRef (trace w) = 0%nat.
Proof.
  intros [r Hl].
  apply (later_invariant R env
           (fun w => count is_DeleteGlobalRef (trace w) = 0%nat))
    with (w := world0 r); [| |exact Hl|reflexivity].
  - intros d w1 IH.
    destruct (call_cases d w1) as [[_ E]|[_ (c & g & f & m & n & Hn & _ & Et)]].
    + now rewrite E.
    + rewrite Et, count_app, IH. destruct Hn; reflexivity.
  - intros r' w1 IH. exact IH.
Qed.


(** X4.  In every reachable world with the flag true the history ends with
    the eight effects of one successful call, made for exactly the cached
    handles: [udsa_pathID] and [udsa_ctorID] were looked up on the class that
    [udsa_class] holds, which is the promotion of a class found by name. *)
Theorem initialized_handles_coherent (w : world R) :
  reachable env w ->
  InitializationFlag w = true ->
  exists c t,
    c <> NULL /\
    trace w =
    t ++ steps c (udsa_class (mem w)) (udsa_pathID (mem w))
           (udsa_ctorID (mem w)).
Proof.
  intros [r Hl] Hflag. apply flag_true_iff in Hflag.
  assert (H : udsa_initialized (mem w) = 0 \/
              exists c t,
                c <> NULL /\
                trace w =
                t ++ steps c (udsa_class (mem w)) (udsa_pathID (mem w))
                       (udsa_ctorID (mem w))).
  { apply (later_invariant R env
             (fun w => udsa_initialized (mem w) = 0 \/
                       exists c t,
                         c <> NULL /\
                         trace w =
                         t ++ steps c (udsa_class (mem w))
                                (udsa_pathID (mem w)) (udsa_ctorID (mem w))))
      with (w := world0 r); [| |exact Hl|left; reflexivity].
    - intros d w1 IH.
      destruct (call_cases d w1)
        as [[_ E]|[H0 (c & g & f & m & n & Hn & Em & Et)]].
      + now rewrite E.
      + rewrite Em, Et.
        destruct Hn; cbn; try (left; exact H0).
        right. exists c, (trace w1). now split.
    - intros r' w1 IH. exact IH. }
  destruct H as [H|H]; [contradiction|exact H].
Qed.

(** X6.  In every reachable world the calls made line up: NewGlobalRef was
    called once for each successful FindClass, GetFieldID once for each
    successful NewGlobalRef, GetMethodID once for each successful
    GetFieldID, and the flag was stored once for each successful
    GetMethodID. *)
Theorem lookup_count_chain (w : world R) :
  reachable env w ->
  count is_NewGlobalRef (trace w) =
    count (both is_FindClass succeeded) (trace w) /\
  count is_GetFieldID (trace w) =
    count (both is_NewGlobalRef succeeded) (trace w) /\
  count is_GetMethodID (trace w) =
    count (both is_GetFieldID succeeded) (trace w) /\
  count (is_store_to Vudsa_initialized) (trace w) =
    count (both is_GetMethodID succeeded) (trace w).
Proof.
  intros [r Hl].
  apply (later_invariant R env
           (fun w =>
              count is_NewGlobalRef (trace w) =
                count (both is_FindClass succeeded) (trace w) /\
              count is_GetFieldID (trace w) =
                count (both is_NewGlobalRef succeeded) (trace w) /\
              count is_GetMethodID (trace w) =
                count (both is_GetFieldID succeeded) (trace w) /\
              count (is_store_to Vudsa_initialized) (trace w) =
                count (both is_GetMethodID succeeded) (trace w)))
    with (w := world0 r); [| |exact Hl|cbn; auto].
  - intros d w1 (I1 & I2 & I3 & I4).
    destruct (call_cases d w1)
      as [[_ E]|[_ (c & g & f & m & n & Hn & _ & Et)]].
    + rewrite E. auto.
    + rewrite Et, !count_app, I1, I2, I3, I4.
      destruct Hn; null_tests; cbn; unfold NULL;
        repeat match goal with H : (_ =? 0) = false |- _ => rewrite H end;
        cbn; auto.
  - intros r' w1 IH. exact IH.
Qed.

(** X9.  There is no memory of a failure: while the runtime cannot find the
    class, every one of [n] calls in a row performs the type lookup again and
    nothing else, and the globals stay as they were at the start. *)
Theorem missing_class_retried (d : jclass) (r : R) (n : nat) :
  (forall r', fst (FindClass env udsa_name r') = NULL) ->
  lookups (trace (calls env n d (world0 r))) = (n, 0%nat, 0%nat) /\
  length (trace (calls env n d (world0 r))) = n /\
  mem (calls env n d (world0 r)) = globals0.
Proof.
  intros Hno.
  assert (G : forall k (w : world R),
             udsa_initialized (mem w) = 0 ->
             mem (calls env k d w) = mem w /\
             exists t,
               trace (calls env k d w) = trace w ++ t /\
               length t = k /\ lookups t = (k, 0%nat, 0%nat)).
  { induction k as [|k IH]; intros w H0.
    - split; [reflexivity|]. exists []. now rewrite app_nil_r.
    - cbn [calls].
      destruct (FindClass env udsa_name (jvm w)) as [c r1] eqn:Hc.
      assert (Nc : c = NULL) by (specialize (Hno (jvm w)); now rewrite Hc in Hno).
      destruct (NewGlobalRef env c r1) as [g r2] eqn:Hg.
      destruct (GetFieldID env g path_name path_sig r2) as [f r3] eqn:Hf.
      destruct (GetMethodID env g ctor_name ctor_sig r3) as [m r4] eqn:Hm.
      assert (E : call env d w =
                  {| mem := mem w; jvm := r1;
                     trace := trace w ++ [EFindClass udsa_name c] |}).
      { unfold call.
        rewrite (path_initializing R env d w c g f m r1 r2 r3 r4
                   H0 Hc Hg Hf Hm).
        now rewrite (cut_no_class c g f m Nc). }
      rewrite E.
      destruct (IH {| mem := mem w; jvm := r1;
                      trace := trace w ++ [EFindClass udsa_name c] |} H0)
        as [Em (t & Et & Hlen & Hlk)].
      split; [exact Em|].
      exists (EFindClass udsa_name c :: t).
      split; [rewrite Et; cbn [trace]; now rewrite <- app_assoc|].
      split; [cbn; now rewrite Hlen|].
      unfold lookups, count in *.
      cbn [filter is_FindClass is_GetFieldID is_GetMethodID length].
      injection Hlk as -> -> ->. reflexivity. }
  destruct (G n (world0 r) eq_refl) as [Em (t & Et & Hlen & Hlk)].
  cbn [world0 trace app] in Et. rewrite Et. auto.
Qed.

End Lifetime.

(** * Further runs on the scripted runtime *)

Lemma reachable_after_calls (hs : list Z) (n : nat) :
  reachable scripted (calls scripted n 0 (world0 (play hs))).
Proof.
  exists (play hs).
  assert (G : forall k w, later scripted (world0 (play hs)) w ->
                          later scripted (world0 (play hs)) (calls scripted k 0 w)).
  { induction k as [|k IH]; intros w Hw; [exact Hw|].
    cbn [calls]. apply IH. now apply later_call. }
  apply G. apply later_now.
Defined.

(** The class is found, the runtime has no global reference left. *)
Lemma promotion_failure_witness :
  fst (Java_java_nio_channels_UnixDomainSocketAddress_init scripted 0
         (world0 (play [7; 0; 9; 10]))) = Return /\
  trace (call scripted 0 (world0 (play [7; 0; 9; 10]))) =
    trace (world0 (play [7; 0; 9; 10])) ++ firstn 3 (steps 7 NULL NULL NULL) /\
  count is_GetFieldID (trace (call scripted 0 (world0 (play [7; 0; 9; 10])))) =
    count is_GetFieldID (trace (world0 (play [7; 0; 9; 10]))) /\
  count is_GetMethodID (trace (call scripted 0 (world0 (play [7; 0; 9; 10])))) =
    count is_GetMethodID (trace (world0 (play [7; 0; 9; 10]))) /\
  jvm (call scripted 0 (world0 (play [7; 0; 9; 10]))) = play [9; 10] /\
  udsa_class (mem (call scripted 0 (world0 (play [7; 0; 9; 10])))) = NULL /\
  udsa_pathID (mem (call scripted 0 (world0 (play [7; 0; 9; 10])))) =
    udsa_pathID (mem (world0 (play [7; 0; 9; 10]))) /\
  udsa_ctorID (mem (call scripted 0 (world0 (play [7; 0; 9; 10])))) =
    udsa_ctorID (mem (world0 (play [7; 0; 9; 10]))) /\
  InitializationFlag (call scripted 0 (world0 (play [7; 0; 9; 10]))) = false.
Proof.
  apply (promotion_failure script scripted 0 (world0 (play [7; 0; 9; 10]))
           7 0 (play [0; 9; 10]) (play [9; 10]));
    by_running.
Defined.

(** Class and field are found, the constructor is not. *)
Lemma constructor_lookup_failure_witness :
  fst (Java_java_nio_channels_UnixDomainSocketAddress_init scripted 0
         (world0 (play [7; 8; 9; 0]))) = Return /\
  call scripted 0 (world0 (play [7; 8; 9; 0])) =
    {| mem := {| udsa_class := 8; udsa_ctorID := NULL; udsa_pathID := 9;
                 udsa_initialized := 0 |};
       jvm := {| handles := []; pending := true |};
       trace := trace (world0 (play [7; 8; 9; 0])) ++
                firstn 7 (steps 7 8 9 NULL) |} /\
  count (is_store_to Vudsa_initialized)
    (trace (call scripted 0 (world0 (play [7; 8; 9; 0])))) =
  count (is_store_to Vudsa_initialized) (trace (world0 (play [7; 8; 9; 0]))).
Proof.
  apply (constructor_lookup_failure script scripted 0
           (world0 (play [7; 8; 9; 0])) 7 8 9 0
           (play [8; 9; 0]) (play [9; 0]) (play [0])
           {| handles := []; pending := true |});
    by_running.
Defined.

(** Three calls: no field, no constructor, then success. *)
Lemma null_never_passed_witness :
  forallb null_free
    (trace (calls scripted 3 0
              (world0 (play [7; 8; 0; 17; 18; 19; 0; 27; 28; 29; 30])))) = true.
Proof.
  exact (null_never_passed script scripted _
           (reachable_after_calls [7; 8; 0; 17; 18; 19; 0; 27; 28; 29; 30] 3)).
Defined.

Lemma never_releases_witness :
  count is_DeleteGlobalRef
    (trace (calls scripted 3 0
              (world0 (play [7; 8; 0; 17; 18; 19; 0; 27; 28; 29; 30])))) = 0%nat.
Proof.
  exact (never_releases script scripted _
           (reachable_after_calls [7; 8; 0; 17; 18; 19; 0; 27; 28; 29; 30] 3)).
Defined.


Lemma initialized_handles_coherent_witness :
  exists c t,
    c <> NULL /\
    trace (calls scripted 2 0 (world0 (play [7; 8; 0; 17; 18; 19; 20]))) =
    t ++ steps c
           (udsa_class
              (mem (calls scripted 2 0 (world0 (play [7; 8; 0; 17; 18; 19; 20])))))
           (udsa_pathID
              (mem (calls scripted 2 0 (world0 (play [7; 8; 0; 17; 18; 19; 20])))))
           (udsa_ctorID
              (mem (calls scripted 2 0 (world0 (play [7; 8; 0; 17; 18; 19; 20]))))).
Proof.
  exact (initialized_handles_coherent script scripted _
           (reachable_after_calls [7; 8; 0; 17; 18; 19; 20] 2) eq_refl).
Defined.

Lemma lookup_count_chain_witness :
  count is_NewGlobalRef
    (trace (calls scripted 3 0 (world0 (play [7; 0; 17; 18; 19; 0; 0])))) =
  count (both is_FindClass succeeded)
    (trace (calls scripted 3 0 (world0 (play [7; 0; 17; 18; 19; 0; 0])))) /\
  count is_GetFieldID
    (trace (calls scripted 3 0 (world0 (play [7; 0; 17; 18; 19; 0; 0])))) =
  count (both is_NewGlobalRef succeeded)
    (trace (calls scripted 3 0 (world0 (play [7; 0; 17; 18; 19; 0; 0])))) /\
  count is_GetMethodID
    (trace (calls scripted 3 0 (world0 (play [7; 0; 17; 18; 19; 0; 0])))) =
  count (both is_GetFieldID succeeded)
    (trace (calls scripted 3 0 (world0 (play [7; 0; 17; 18; 19; 0; 0])))) /\
  count (is_store_to Vudsa_initialized)
    (trace (calls scripted 3 0 (world0 (play [7; 0; 17; 18; 19; 0; 0])))) =
  count (both is_GetMethodID succeeded)
    (trace (calls scripted 3 0 (world0 (play [7; 0; 17; 18; 19; 0; 0])))).
Proof.
  exact (lookup_count_chain script scripted _
           (reachable_after_calls [7; 0; 17; 18; 19; 0; 0] 3)).
Defined.

(** Four calls on the runtime without the class. *)
Lemma missing_class_retried_witness :
  lookups (trace (calls classless 4 0 (world0 false))) =
    (4%nat, 0%nat, 0%nat) /\
  length (trace (calls classless 4 0 (world0 false))) = 4%nat /\
  mem (calls classless 4 0 (world0 false)) = globals0.
Proof.
  apply (missing_class_retried bool classless 0 false 4).
  intros r'. reflexivity.
Defined.
